(** * Sample-size calculator for a two-proportion A/B test

    A shallow embedding of the calculation that [app_v1_full_featured.py]
    runs when the "Calculate Sample Size" button is pressed (lines 79-117),
    and the properties of it that the specification states.

    Number model.  The widgets hand the script two Python floats (the rates,
    in percent) and four Python ints (confidence, power and the two traffic
    weights, in percent).  Ints are [Z].  In [compute] floats are read as
    real numbers: every operation of the script on them is the exact
    operation on [R], and [math.ceil] is [Zceil].  The module [Binary64]
    gives the arithmetic of lines 82-87, 102, 108 and 116-117 as the script
    runs it, on binary64 floats, for the places where the rounding of a
    product or a quotient decides what is returned.

    The two statsmodels routines the script calls are not part of the
    repository.  [compute] takes them as parameters; the module [Statsmodels]
    gives the formulas the specification states for them. *)

From Stdlib Require Import Floats.
From Stdlib Require Import Reals Lra Lia ZArith Bool.
From Stdlib Require Import Zfloor.

Local Open Scope R_scope.

(** ** Data model *)

(** The six widget values the script reads (lines 17-74), in the units the
    widgets use: percentages. *)
Record CalculationInput : Type := mkInput {
  baseline_rate : R;          (* "Current conversion rate (%)", a float *)
  minimum_improvement : R;    (* "Minimum detectable effect (%)", a float *)
  confidence_level : Z;       (* slider, an int *)
  power : Z;                  (* slider, an int *)
  control_ratio : Z;          (* "Control (%)", an int *)
  treatment_ratio : Z         (* "Variation (%)", an int *)
}.

(** The variables the script holds once line 117 has run. *)
Record CalculationResult : Type := mkResult {
  control_proportion : R;
  treatment_proportion : R;
  alpha : R;
  power_decimal : R;
  split_warning : option Z;   (* the total shown by [st.warning], line 98 *)
  adjusted_treatment_ratio : Z;
  ratio : R;
  effect_size : R;
  control_sample : Z;
  treatment_sample : Z;
  total_needed : Z
}.

(** The one message the script raises itself (line 88), with the rate it
    prints. *)
Inductive ValidationError : Type :=
| TargetRateExceeds100 (target_rate : R).

(** An exception nothing in the script catches. *)
Inductive PyException : Type :=
| ZeroDivisionError       (* float division by zero, line 102 *)
| SolverError.            (* the solver raised, or gave no finite number to
                             [math.ceil] *)

Inductive outcome : Type :=
| Result (rs : CalculationResult)
| Stopped (e : ValidationError)      (* [st.error] then [st.stop()] *)
| Crashed (e : PyException).

(** Python's [x / y] on floats. *)
Definition pydiv (x y : R) : option R :=
  if Req_dec_T y 0 then None else Some (x / y).

(** Lines 96-99: the variation weight the script goes on with. *)
Definition adjust_treatment_ratio (control treatment : Z) : Z :=
  if negb (control + treatment =? 100)%Z then (100 - control)%Z else treatment.

(** Line 98 shows a warning exactly when the adjustment is made. *)
Definition traffic_split_warning (control treatment : Z) : option Z :=
  if negb (control + treatment =? 100)%Z then Some (control + treatment)%Z
  else None.

(** ** The script's arithmetic in binary64 *)

Module Binary64.

(** A float that is neither an infinity nor a NaN. *)
Definition is_finite (f : float) : bool :=
  match Prim2SF f with
  | S754_infinity _ | S754_nan => false
  | _ => true
  end.


(** Python's conversion of an int to a float: the nearest float, ties to
    even; an int too large for a float raises OverflowError. *)
Definition of_int (z : Z) : option float :=
  let f := SF2Prim (binary_normalize prec emax z 0 false) in
  if is_finite f then Some f else None.

Definition int_as_spec (z : Z) : spec_float :=
  match z with
  | Z0 => S754_zero false
  | Zpos p => S754_finite false p 0
  | Zneg p => S754_finite true p 0
  end.

(** Python's [a / b] on ints: the float nearest to the exact quotient;
    ZeroDivisionError for [b = 0], OverflowError for a quotient too large. *)
Definition int_truediv (a b : Z) : option float :=
  if (b =? 0)%Z then None
  else
    let f := SF2Prim (SFdiv prec emax (int_as_spec a) (int_as_spec b)) in
    if is_finite f then Some f else None.

(** [math.ceil] on a float: ValueError for a NaN, OverflowError for an
    infinity. *)
Definition py_ceil (f : float) : option Z :=
  match Prim2SF f with
  | S754_zero _ => Some 0%Z
  | S754_finite s m e =>
      let a := cond_Zopp s (Zpos m) in
      Some (if (0 <=? e)%Z then a * 2 ^ e else - ((- a) / 2 ^ (- e)))%Z
  | S754_infinity _ | S754_nan => None
  end.

(** Line 82. *)
Definition control_proportion (baseline_rate : float) : float :=
  (baseline_rate / 100)%float.

(** Line 83. *)
Definition sensitivity (minimum_improvement : float) : float :=
  (minimum_improvement / 100)%float.

(** Line 84. *)
Definition treatment_proportion (baseline_rate minimum_improvement : float)
  : float :=
  (control_proportion baseline_rate * (1 + sensitivity minimum_improvement))%float.


(** Line 102; a float division by zero raises ZeroDivisionError. *)
Definition ratio (treatment_ratio control_ratio : Z) : option float :=
  match int_truediv treatment_ratio 100, int_truediv control_ratio 100 with
  | Some a, Some b => if (b =? 0)%float then None else Some (a / b)%float
  | _, _ => None
  end.

(** Line 116. *)
Definition treatment_sample (control_sample : Z) (ratio : float) : option Z :=
  match of_int control_sample with
  | Some c => py_ceil (c * ratio)%float
  | None => None
  end.


End Binary64.

(** ** What the script computes, named after the specification's terms *)

(** treatment_rate = baseline_rate * (1 + relative_improvement), as fractions. *)
Definition treatment_rate (i : CalculationInput) : R :=
  baseline_rate i / 100 * (1 + minimum_improvement i / 100).

(** treatment_weight / control_weight after the normalisation of the split. *)
Definition allocation_ratio (i : CalculationInput) : R :=
  IZR (adjust_treatment_ratio (control_ratio i) (treatment_ratio i))
  / IZR (control_ratio i).

Section Calculator.

(** [proportion_effectsize prop1 prop2] of statsmodels. *)
Variable proportion_effectsize : R -> R -> R.

(** [zt_ind_solve_power effect_size alpha power ratio], called with
    [alternative='two-sided']; [None] when it yields no finite number. *)
Variable zt_ind_solve_power : R -> R -> R -> R -> option R.

(** Lines 82-117. *)
Definition compute (i : CalculationInput) : outcome :=
  let control_proportion := baseline_rate i / 100 in
  let sensitivity := minimum_improvement i / 100 in
  let treatment_proportion := control_proportion * (1 + sensitivity) in
  if Rlt_dec 1 treatment_proportion then
    Stopped (TargetRateExceeds100 treatment_proportion)
  else
    let alpha := IZR (100 - confidence_level i) / 100 in
    let power_decimal := IZR (power i) / 100 in
    let warning := traffic_split_warning (control_ratio i) (treatment_ratio i) in
    let treatment_ratio :=
      adjust_treatment_ratio (control_ratio i) (treatment_ratio i) in
    match pydiv (IZR treatment_ratio / 100) (IZR (control_ratio i) / 100) with
    | None => Crashed ZeroDivisionError
    | Some ratio =>
        let effect_size :=
          proportion_effectsize treatment_proportion control_proportion in
        match zt_ind_solve_power effect_size alpha power_decimal ratio with
        | None => Crashed SolverError
        | Some n =>
            let control_sample := Zceil n in
            let treatment_sample := Zceil (IZR control_sample * ratio) in
            let total_needed := (control_sample + treatment_sample)%Z in
            Result (mkResult control_proportion treatment_proportion alpha
                      power_decimal warning treatment_ratio ratio effect_size
                      control_sample treatment_sample total_needed)
        end
    end.

(** The call of lines 108-114, with the arguments the script passes. *)
Definition solver_call (i : CalculationInput) : option R :=
  zt_ind_solve_power (proportion_effectsize (treatment_rate i) (baseline_rate i / 100))
        (IZR (100 - confidence_level i) / 100)
        (IZR (power i) / 100)
        (allocation_ratio i).

(** The record lines 82-117 build from the solver's answer. *)
Definition result_of (i : CalculationInput) (n : R) : CalculationResult :=
  let r := allocation_ratio i in
  let cs := Zceil n in
  let ts := Zceil (IZR cs * r) in
  mkResult (baseline_rate i / 100) (treatment_rate i)
           (IZR (100 - confidence_level i) / 100) (IZR (power i) / 100)
           (traffic_split_warning (control_ratio i) (treatment_ratio i))
           (adjust_treatment_ratio (control_ratio i) (treatment_ratio i))
           r (proportion_effectsize (treatment_rate i) (baseline_rate i / 100))
           cs ts (cs + ts)%Z.

End Calculator.

(** The input with the two traffic weights exchanged. *)
Definition swap_weights (i : CalculationInput) : CalculationInput :=
  mkInput (baseline_rate i) (minimum_improvement i) (confidence_level i)
          (power i) (treatment_ratio i) (control_ratio i).

(** The input with another minimum detectable effect. *)
Definition with_improvement (i : CalculationInput) (m : R) : CalculationInput :=
  mkInput (baseline_rate i) m (confidence_level i) (power i)
          (control_ratio i) (treatment_ratio i).

(** The bounds the widgets enforce (lines 19-20, 29-30, 39-40, 49-50, 62-63,
    70-71). *)
Definition in_widget_range (i : CalculationInput) : Prop :=
  1 / 10 <= baseline_rate i <= 999 / 10 /\
  1 / 10 <= minimum_improvement i <= 200 /\
  (80 <= confidence_level i <= 99)%Z /\
  (70 <= power i <= 99)%Z /\
  (10 <= control_ratio i <= 90)%Z /\
  (10 <= treatment_ratio i <= 90)%Z.

Definition is_result (o : outcome) : Prop :=
  match o with Result _ => True | _ => False end.

Definition is_validation_error (o : outcome) : Prop :=
  match o with Stopped _ => True | _ => False end.

(** ** What the script shows *)

(** The two run-time estimates of lines 157-158. *)
Record Report : Type := mkReport {
  days_1k : Z;                          (* line 157 *)
  days_10k : Z                          (* line 158 *)
}.

(** Lines 157 and 158. *)
Definition report (rs : CalculationResult) : Report :=
  mkReport (Zceil (IZR (total_needed rs) / 1000))
           (Zceil (IZR (total_needed rs) / 10000)).

(** The input with another "Variation (%)". *)
Definition with_treatment_ratio (i : CalculationInput) (t : Z)
  : CalculationInput :=
  mkInput (baseline_rate i) (minimum_improvement i) (confidence_level i)
          (power i) (control_ratio i) t.

(** Two runs that end alike and hold the same numbers; the warning about the
    split is left aside. *)
Definition same_numbers (a b : outcome) : Prop :=
  match a, b with
  | Result x, Result y =>
      control_proportion x = control_proportion y /\
      treatment_proportion x = treatment_proportion y /\
      alpha x = alpha y /\
      power_decimal x = power_decimal y /\
      adjusted_treatment_ratio x = adjusted_treatment_ratio y /\
      ratio x = ratio y /\
      effect_size x = effect_size y /\
      control_sample x = control_sample y /\
      treatment_sample x = treatment_sample y /\
      total_needed x = total_needed y
  | Stopped e, Stopped e' => e = e'
  | Crashed e, Crashed e' => e = e'
  | _, _ => False
  end.

(** ** The statistics routines *)

Module Statsmodels.

(** Modelled from the spec: statsmodels' [proportion_effectsize] is not in
    the repository.  Section 4.1 step 3 gives the transform, Cohen's h, as
    twice the difference of the arcsine square roots of the two
    proportions; the library subtracts its second argument's term from its
    first's. *)
Definition proportion_effectsize (prop1 prop2 : R) : R :=
  2 * (asin (sqrt prop1) - asin (sqrt prop2)).

Section Solver.

(** The quantile function of the standard normal distribution. *)
Variable norm_ppf : R -> R.

(** Modelled from the spec: statsmodels' [zt_ind_solve_power] is not in
    the repository.  Section 4.1 step 4 gives the two-sample z-test
    sample size
    [((z_(1-alpha/2) + z_power)^2 * (1 + 1/ratio)) / h^2];
    where the formula divides by zero no number is produced. *)
Definition zt_ind_solve_power (effect_size alpha power ratio : R)
  : option R :=
  if Req_dec_T ratio 0 then None
  else if Req_dec_T (effect_size ^ 2) 0 then None
  else Some ((norm_ppf (1 - alpha / 2) + norm_ppf power) ^ 2
             * (1 + 1 / ratio) / effect_size ^ 2).

End Solver.

(** Entries of the standard normal table, to six decimals: the quantiles
    at 0.5, 0.7, 0.8, 0.9 and 0.975. *)
Definition normal_table (p : R) : R :=
  if Req_dec_T p (1 / 2) then 0
  else if Req_dec_T p (7 / 10) then 524401 / 1000000
  else if Req_dec_T p (8 / 10) then 841621 / 1000000
  else if Req_dec_T p (9 / 10) then 1281552 / 1000000
  else if Req_dec_T p (975 / 1000) then 1959964 / 1000000
  else 0.

(** A quantile function that agrees with the table to six decimals at the two
    probabilities a run at 95% confidence and 80% power looks up. *)
Definition agrees_with_table (norm_ppf : R -> R) : Prop :=
  Rabs (norm_ppf (975 / 1000) - normal_table (975 / 1000)) <= 1 / 1000000 /\
  Rabs (norm_ppf (8 / 10) - normal_table (8 / 10)) <= 1 / 1000000.

End Statsmodels.

(** The calculator with the formulas of the specification plugged in. *)
Definition compute_spec (norm_ppf : R -> R) : CalculationInput -> outcome :=
  compute Statsmodels.proportion_effectsize
          (Statsmodels.zt_ind_solve_power norm_ppf).

(** Cohen's h as the specification writes it, p1 the baseline rate and p2 the
    treatment rate. *)
Definition cohen_h (p1 p2 : R) : R :=
  2 * asin (sqrt p2) - 2 * asin (sqrt p1).

(** The exact two-sample z-test solution of section 4.1 step 4, for an input,
    with alpha = 1 - confidence. *)
Definition exact_control_n (norm_ppf : R -> R) (i : CalculationInput) : R :=
  let confidence := IZR (confidence_level i) / 100 in
  let alpha := 1 - confidence in
  let h := cohen_h (baseline_rate i / 100) (treatment_rate i) in
  (norm_ppf (1 - alpha / 2) + norm_ppf (IZR (power i) / 100)) ^ 2
  * (1 + 1 / allocation_ratio i) / h ^ 2.

(** The domain the specification gives [CalculationInput], on the script's
    percent scale, together with the check of line 87. *)
Definition valid_input (i : CalculationInput) : Prop :=
  0 < baseline_rate i < 100 /\
  0 < minimum_improvement i /\
  treatment_rate i <= 1 /\
  (0 < confidence_level i < 100)%Z /\
  (0 < power i < 100)%Z /\
  (0 < control_ratio i < 100)%Z /\
  (0 < treatment_ratio i)%Z.

(** ** Inputs used in the examples *)

Module Examples.

(** 25% baseline, +100%, 95% confidence, 80% power, 10/90 split. *)
Definition split_10_90 : CalculationInput := mkInput 25 100 95 80 10 90.

(** 50% baseline, 95% confidence, 80% power, even split, for a given
    minimum detectable effect. *)
Definition half_baseline (m : R) : CalculationInput := mkInput 50 m 95 80 50 50.


(** 60% baseline and +100%: a target rate of 120%. *)
Definition over_target : CalculationInput := mkInput 60 100 95 80 50 50.

(** A variation weight of -20%. *)
Definition negative_weight : CalculationInput := mkInput 25 100 95 80 120 (-20).


(** Weights that do not add up to 100. *)
Definition split_30_30 : CalculationInput := mkInput 25 100 95 80 30 30.

(** A solver that answers 1 whatever it is asked. *)
Definition constant_solver (effect_size alpha power ratio : R) : option R :=
  Some 1.

End Examples.

(** ** Tactics *)

(** Closes the side conditions of a concrete input. *)
Ltac check_input :=
  unfold valid_input, treatment_rate; cbn -[IZR Rdiv Rmult Rplus Rlt Rle];
  repeat split; try lra; try lia.

(** Looks a probability up in [Statsmodels.normal_table]. *)
Ltac table_lookup :=
  unfold Statsmodels.normal_table;
  repeat match goal with
    | |- context [Req_dec_T ?a ?b] =>
        destruct (Req_dec_T a b) as [? | ?];
        [ try (exfalso; lra) | try (exfalso; lra) ]
    end;
  try reflexivity; try (exfalso; lra).

(** * Properties *)

(** ** The script's own steps *)

Lemma pydiv_weights (t c : Z) :
  c <> 0%Z -> pydiv (IZR t / 100) (IZR c / 100) = Some (IZR t / IZR c).
Proof.
  intros Hc. unfold pydiv.
  assert (Hc' : IZR c <> 0) by (apply not_0_IZR; exact Hc).
  destruct (Req_dec_T (IZR c / 100) 0) as [E | _].
  - exfalso. apply Hc'. lra.
  - f_equal. field. exact Hc'.
Qed.

Lemma pydiv_zero_weight (x : R) : pydiv x (IZR 0 / 100) = None.
Proof.
  unfold pydiv. destruct (Req_dec_T (0 / 100) 0) as [_ | N]; [reflexivity|].
  exfalso. apply N. lra.
Qed.

Lemma adjust_sums_to_100 (c t : Z) :
  (c + t = 100)%Z -> adjust_treatment_ratio c t = t.
Proof.
  intros H. unfold adjust_treatment_ratio.
  rewrite (proj2 (Z.eqb_eq _ _) H). reflexivity.
Qed.

Lemma adjust_other_total (c t : Z) :
  (c + t <> 100)%Z -> adjust_treatment_ratio c t = (100 - c)%Z.
Proof.
  intros H. unfold adjust_treatment_ratio.
  rewrite (proj2 (Z.eqb_neq _ _) H). reflexivity.
Qed.

Lemma warning_sums_to_100 (c t : Z) :
  (c + t = 100)%Z -> traffic_split_warning c t = None.
Proof.
  intros H. unfold traffic_split_warning.
  rewrite (proj2 (Z.eqb_eq _ _) H). reflexivity.
Qed.

Lemma warning_other_total (c t : Z) :
  (c + t <> 100)%Z -> traffic_split_warning c t = Some (c + t)%Z.
Proof.
  intros H. unfold traffic_split_warning.
  rewrite (proj2 (Z.eqb_neq _ _) H). reflexivity.
Qed.

Section Steps.

Variable es : R -> R -> R.
Variable solve : R -> R -> R -> R -> option R.

Lemma compute_stops (i : CalculationInput) :
  1 < treatment_rate i ->
  compute es solve i = Stopped (TargetRateExceeds100 (treatment_rate i)).
Proof.
  intros H. unfold compute. fold (treatment_rate i).
  destruct (Rlt_dec 1 (treatment_rate i)) as [_ | N]; [reflexivity | contradiction].
Qed.

Lemma compute_zero_control (i : CalculationInput) :
  treatment_rate i <= 1 -> control_ratio i = 0%Z ->
  compute es solve i = Crashed ZeroDivisionError.
Proof.
  intros H Hc. unfold compute. fold (treatment_rate i).
  destruct (Rlt_dec 1 (treatment_rate i)) as [L | _]; [lra|].
  rewrite Hc, pydiv_zero_weight. reflexivity.
Qed.

Lemma compute_calls_solver (i : CalculationInput) :
  treatment_rate i <= 1 -> control_ratio i <> 0%Z ->
  compute es solve i =
  match solver_call es solve i with
  | None => Crashed SolverError
  | Some n => Result (result_of es i n)
  end.
Proof.
  intros H Hc. unfold compute. fold (treatment_rate i).
  destruct (Rlt_dec 1 (treatment_rate i)) as [L | _]; [lra|].
  rewrite (pydiv_weights _ _ Hc). reflexivity.
Qed.

Lemma compute_result (i : CalculationInput) (n : R) :
  treatment_rate i <= 1 -> control_ratio i <> 0%Z ->
  solver_call es solve i = Some n ->
  compute es solve i = Result (result_of es i n).
Proof.
  intros H Hc Hn. rewrite (compute_calls_solver i H Hc), Hn. reflexivity.
Qed.

Lemma compute_solver_fails (i : CalculationInput) :
  treatment_rate i <= 1 -> control_ratio i <> 0%Z ->
  solver_call es solve i = None ->
  compute es solve i = Crashed SolverError.
Proof.
  intros H Hc Hn. rewrite (compute_calls_solver i H Hc), Hn. reflexivity.
Qed.

(** A result is only ever built on the far side of the check of line 87. *)
Lemma result_passed_check (i : CalculationInput) (rs : CalculationResult) :
  compute es solve i = Result rs ->
  treatment_rate i <= 1 /\ treatment_proportion rs = treatment_rate i.
Proof.
  unfold compute. fold (treatment_rate i).
  destruct (Rlt_dec 1 (treatment_rate i)) as [L | N]; [discriminate|].
  destruct (pydiv _ _) as [r|]; [|discriminate].
  destruct (solve _ _ _ _) as [n|]; [|discriminate].
  intros E. injection E as <-. simpl. split; [lra | reflexivity].
Qed.

End Steps.

(** ** Ceilings of binary64 floats *)



(** ** Arcsine, square root and pi *)

Lemma asin_lt (x y : R) : -1 <= x -> x < y -> y <= 1 -> asin x < asin y.
Proof.
  intros Hx Hxy Hy.
  pose proof (asin_bound x) as [Bx1 Bx2].
  pose proof (asin_bound y) as [By1 By2].
  apply sin_increasing_0; try assumption.
  rewrite !sin_asin by lra. exact Hxy.
Qed.

Lemma asin_sqrt_lt (p q : R) :
  0 <= p -> p < q -> q <= 1 -> asin (sqrt p) < asin (sqrt q).
Proof.
  intros Hp Hpq Hq.
  assert (S1 : sqrt p < sqrt q) by (apply sqrt_lt_1; lra).
  assert (S0 : 0 <= sqrt p) by apply sqrt_pos.
  assert (S2 : sqrt q <= 1) by (rewrite <- sqrt_1; apply sqrt_le_1; lra).
  apply asin_lt; lra.
Qed.

Lemma asin_sqrt_range (p : R) : 0 <= asin (sqrt p) <= PI / 2.
Proof.
  split; [| apply asin_bound].
  destruct (Rle_lt_dec 1 (sqrt p)) as [G | L].
  - unfold asin. destruct (Rle_dec (sqrt p) (-1)) as [A | _]; [lra|].
    destruct (Rle_dec 1 (sqrt p)) as [_ | B]; [| contradiction].
    pose proof PI_RGT_0. lra.
  - pose proof (sqrt_pos p) as [P | E].
    + rewrite <- asin_0. left. apply asin_lt; lra.
    + rewrite <- E, asin_0. lra.
Qed.

Lemma PI_bounds : 314 / 100 < PI < 3142 / 1000.
Proof.
  pose proof (PI_2_3_7_ineq 2) as [L U].
  unfold PI_2_3_7_tg, tg_alt, Ratan_seq in L, U.
  simpl in L, U.
  split; lra.
Qed.

Lemma asin_half : asin (1 / 2) = PI / 6.
Proof.
  rewrite <- sin_PI6. apply asin_sin.
  pose proof PI_RGT_0. lra.
Qed.

Lemma sqrt_quarter : sqrt (1 / 4) = 1 / 2.
Proof.
  replace (1 / 4) with ((1 / 2) * (1 / 2)) by lra.
  apply sqrt_square. lra.
Qed.

Lemma asin_sqrt_half : asin (sqrt (1 / 2)) = PI / 4.
Proof.
  replace (1 / 2) with (/ 2) by lra.
  rewrite sqrt_inv. apply asin_inv_sqrt2.
Qed.

Lemma asin_sqrt_one : asin (sqrt 1) = PI / 2.
Proof. rewrite sqrt_1. apply asin_1. Qed.

(** The degree-nine Taylor polynomial that bounds the sine from above. *)
Lemma sin_ub_poly (a : R) :
  sin_ub a = a - a ^ 3 / 6 + a ^ 5 / 120 - a ^ 7 / 5040 + a ^ 9 / 362880.
Proof.
  unfold sin_ub, sin_approx. cbn [sum_f_R0]. unfold sin_term.
  change (2 * 0 + 1)%nat with 1%nat. change (2 * 1 + 1)%nat with 3%nat.
  change (2 * 2 + 1)%nat with 5%nat. change (2 * 3 + 1)%nat with 7%nat.
  change (2 * 4 + 1)%nat with 9%nat.
  rewrite !INR_IZR_INZ.
  replace (Z.of_nat (fact 1)) with 1%Z by (vm_compute; reflexivity).
  replace (Z.of_nat (fact 3)) with 6%Z by (vm_compute; reflexivity).
  replace (Z.of_nat (fact 5)) with 120%Z by (vm_compute; reflexivity).
  replace (Z.of_nat (fact 7)) with 5040%Z by (vm_compute; reflexivity).
  replace (Z.of_nat (fact 9)) with 362880%Z by (vm_compute; reflexivity).
  field.
Qed.

Lemma asin_lower (a y : R) :
  0 <= a <= PI / 2 -> sin_ub a <= y -> y <= 1 -> a <= asin y.
Proof.
  intros [A0 A1] Hs Hy.
  pose proof PI_RGT_0 as Hpi.
  assert (Hsin : sin a <= y) by (pose proof (SIN a A0 ltac:(lra)); lra).
  assert (Hy0 : -1 <= y) by (pose proof (SIN_bound a); lra).
  destruct (Rle_lt_dec a (asin y)) as [L | G]; [exact L | exfalso].
  pose proof (asin_bound y) as [B1 B2].
  assert (H : sin (asin y) < sin a) by (apply sin_increasing_1; lra).
  rewrite sin_asin in H by lra. lra.
Qed.

Lemma sqrt_lower (c x : R) : 0 <= c -> c * c <= x -> c <= sqrt x.
Proof.
  intros Hc H. rewrite <- (sqrt_square c Hc). apply sqrt_le_1; nra.
Qed.

Lemma asin_sqrt_9995 : 1535 / 1000 <= asin (sqrt (9995 / 10000)).
Proof.
  apply asin_lower.
  - pose proof PI_bounds. lra.
  - apply Rle_trans with (9997 / 10000).
    + rewrite sin_ub_poly. lra.
    + apply sqrt_lower; lra.
  - rewrite <- sqrt_1. apply sqrt_le_1; lra.
Qed.

Lemma Zceil_value (x : R) (z : Z) :
  IZR z - 1 < x -> x <= IZR z -> Zceil x = z.
Proof. intros L U. apply Zceil_eq. split; assumption. Qed.

Lemma div_le_bound (a d b : R) : 0 < d -> a <= b * d -> a / d <= b.
Proof.
  intros Hd H. apply Rmult_le_reg_r with d; [exact Hd|].
  unfold Rdiv. rewrite Rmult_assoc, Rinv_l by lra. lra.
Qed.

Lemma div_gt_bound (a d b : R) : 0 < d -> b * d < a -> b < a / d.
Proof.
  intros Hd H. apply Rmult_lt_reg_r with d; [exact Hd|].
  unfold Rdiv. rewrite Rmult_assoc, Rinv_l by lra. lra.
Qed.

(** ** The formulas of the specification *)

Lemma effectsize_is_cohen_h (p1 p2 : R) :
  Statsmodels.proportion_effectsize p2 p1 = cohen_h p1 p2.
Proof. unfold Statsmodels.proportion_effectsize, cohen_h. ring. Qed.


Lemma cohen_h_pos (p1 p2 : R) :
  0 <= p1 -> p1 < p2 -> p2 <= 1 -> 0 < cohen_h p1 p2.
Proof.
  intros H0 H1 H2. unfold cohen_h.
  pose proof (asin_sqrt_lt p1 p2 H0 H1 H2). lra.
Qed.

Lemma cohen_h_increasing (p1 p2 p3 : R) :
  0 <= p2 -> p2 < p3 -> p3 <= 1 -> cohen_h p1 p2 < cohen_h p1 p3.
Proof.
  intros H0 H1 H2. unfold cohen_h.
  pose proof (asin_sqrt_lt p2 p3 H0 H1 H2). lra.
Qed.

Lemma treatment_rate_above_baseline (i : CalculationInput) :
  0 < baseline_rate i -> 0 < minimum_improvement i ->
  baseline_rate i / 100 < treatment_rate i.
Proof. intros Hb Hm. unfold treatment_rate. nra. Qed.

Lemma valid_effect_size (i : CalculationInput) :
  valid_input i -> 0 < cohen_h (baseline_rate i / 100) (treatment_rate i).
Proof.
  intros (Hb & Hm & Ht & _).
  apply cohen_h_pos; [lra | | exact Ht].
  apply treatment_rate_above_baseline; lra.
Qed.

Lemma valid_ratio (i : CalculationInput) :
  valid_input i -> 0 < allocation_ratio i.
Proof.
  intros (_ & _ & _ & _ & _ & Hc & Ht). unfold allocation_ratio.
  assert (0 < IZR (control_ratio i)) by (apply IZR_lt; lia).
  apply Rdiv_lt_0_compat; [| assumption].
  apply IZR_lt. unfold adjust_treatment_ratio.
  destruct (Z.eqb_spec (control_ratio i + treatment_ratio i) 100); cbn [negb]; lia.
Qed.

Lemma valid_control (i : CalculationInput) :
  valid_input i -> control_ratio i <> 0%Z.
Proof. intros (_ & _ & _ & _ & _ & Hc & _). lia. Qed.


Section SpecSolver.

Variable norm_ppf : R -> R.

Lemma spec_solver_value (h a p r : R) :
  r <> 0 -> h <> 0 ->
  Statsmodels.zt_ind_solve_power norm_ppf h a p r
  = Some ((norm_ppf (1 - a / 2) + norm_ppf p) ^ 2 * (1 + 1 / r) / h ^ 2).
Proof.
  intros Hr Hh. unfold Statsmodels.zt_ind_solve_power.
  destruct (Req_dec_T r 0) as [E | _]; [contradiction|].
  destruct (Req_dec_T (h ^ 2) 0) as [E | _]; [| reflexivity].
  exfalso. revert E. apply pow_nonzero. exact Hh.
Qed.

Lemma spec_solver_zero_effect (a p r : R) :
  Statsmodels.zt_ind_solve_power norm_ppf 0 a p r = None.
Proof.
  unfold Statsmodels.zt_ind_solve_power.
  destruct (Req_dec_T r 0) as [_ | _]; [reflexivity|].
  destruct (Req_dec_T (0 ^ 2) 0) as [_ | N]; [reflexivity|].
  exfalso. apply N. ring.
Qed.

Lemma spec_solver_call (i : CalculationInput) :
  allocation_ratio i <> 0 ->
  cohen_h (baseline_rate i / 100) (treatment_rate i) <> 0 ->
  solver_call Statsmodels.proportion_effectsize
              (Statsmodels.zt_ind_solve_power norm_ppf) i
  = Some (exact_control_n norm_ppf i).
Proof.
  intros Hr Hh. unfold solver_call.
  rewrite effectsize_is_cohen_h, (spec_solver_value _ _ _ _ Hr Hh).
  unfold exact_control_n. rewrite minus_IZR.
  replace (1 - (100 - IZR (confidence_level i)) / 100 / 2)
    with (1 - (1 - IZR (confidence_level i) / 100) / 2) by lra.
  reflexivity.
Qed.

Lemma compute_spec_valid (i : CalculationInput) :
  valid_input i ->
  compute_spec norm_ppf i
  = Result (result_of Statsmodels.proportion_effectsize i
                      (exact_control_n norm_ppf i)).
Proof.
  intros V. unfold compute_spec. apply compute_result.
  - apply V.
  - apply valid_control, V.
  - apply spec_solver_call.
    + pose proof (valid_ratio i V). lra.
    + pose proof (valid_effect_size i V). lra.
Qed.

End SpecSolver.

(** ** Exchanged weights and changed improvements *)

Lemma Zceil_IZR (z : Z) : Zceil (IZR z) = z.
Proof. apply Zceil_value; lra. Qed.

Lemma swap_valid (i : CalculationInput) :
  valid_input i -> (control_ratio i + treatment_ratio i = 100)%Z ->
  valid_input (swap_weights i).
Proof.
  intros (Hb & Hm & Ht & Hc & Hp & Hcr & Htr) Hs.
  unfold valid_input, swap_weights, treatment_rate in *.
  cbn [baseline_rate minimum_improvement confidence_level power control_ratio
       treatment_ratio].
  repeat split; try lra; try lia.
Qed.

Lemma swap_ratio (i : CalculationInput) :
  (control_ratio i + treatment_ratio i = 100)%Z ->
  allocation_ratio i = IZR (treatment_ratio i) / IZR (control_ratio i) /\
  allocation_ratio (swap_weights i)
  = IZR (control_ratio i) / IZR (treatment_ratio i).
Proof.
  intros Hs. unfold allocation_ratio, swap_weights.
  cbn [control_ratio treatment_ratio].
  rewrite !adjust_sums_to_100 by lia. split; reflexivity.
Qed.

Lemma swap_exact (norm_ppf : R -> R) (i : CalculationInput) :
  valid_input i -> (control_ratio i + treatment_ratio i = 100)%Z ->
  exact_control_n norm_ppf (swap_weights i)
  = exact_control_n norm_ppf i * allocation_ratio i.
Proof.
  intros V Hs. destruct (swap_ratio i Hs) as [R1 R2].
  pose proof (valid_effect_size i V) as Hh.
  destruct V as (_ & _ & _ & _ & _ & Hc & Ht).
  assert (C0 : 0 < IZR (control_ratio i)) by (apply IZR_lt; lia).
  assert (T0 : 0 < IZR (treatment_ratio i)) by (apply IZR_lt; lia).
  unfold exact_control_n. cbv zeta. rewrite R2, R1.
  unfold swap_weights, treatment_rate.
  cbn [baseline_rate minimum_improvement confidence_level power].
  fold (treatment_rate i).
  set (h := cohen_h (baseline_rate i / 100) (treatment_rate i)) in *.
  field. repeat split; lra.
Qed.

(** Rounding a size up and then scaling it overshoots the scaled size by
    less than the scale plus one. *)
Lemma ceil_scaled (x r : R) :
  0 < r ->
  (Zceil (x * r) <= Zceil (IZR (Zceil x) * r))%Z /\
  IZR (Zceil (IZR (Zceil x) * r)) < IZR (Zceil (x * r)) + r + 1.
Proof.
  intros Hr.
  pose proof (Zceil_bound x) as [X1 X2].
  pose proof (Zceil_bound (x * r)) as [Y1 Y2].
  pose proof (Zceil_bound (IZR (Zceil x) * r)) as [W1 W2].
  split; [apply Zceil_le; nra | nra].
Qed.

Lemma with_improvement_exact
  (norm_ppf : R -> R) (i : CalculationInput) (m : R) :
  exact_control_n norm_ppf (with_improvement i m)
  = (norm_ppf (1 - (1 - IZR (confidence_level i) / 100) / 2)
     + norm_ppf (IZR (power i) / 100)) ^ 2
    * (1 + 1 / allocation_ratio i)
    / cohen_h (baseline_rate i / 100)
              (baseline_rate i / 100 * (1 + m / 100)) ^ 2.
Proof. reflexivity. Qed.

(** A larger effect size divides the same numerator by more. *)
Lemma smaller_for_larger_effect (k h1 h2 : R) :
  0 < h1 -> h1 < h2 ->
  (0 <= k -> k / h2 ^ 2 <= k / h1 ^ 2) /\ (0 < k -> k / h2 ^ 2 < k / h1 ^ 2).
Proof.
  intros H1 H12.
  assert (S1 : 0 < h1 ^ 2) by (apply pow_lt; lra).
  assert (S2 : h1 ^ 2 < h2 ^ 2) by nra.
  assert (I : / h2 ^ 2 < / h1 ^ 2) by (apply Rinv_lt_contravar; nra).
  unfold Rdiv. split; intros Hk; nra.
Qed.


(** ** The examples, evaluated *)

Lemma normal_table_975 (p : R) :
  p = 975 / 1000 -> Statsmodels.normal_table p = 1959964 / 1000000.
Proof. intros ->. table_lookup. Qed.

Lemma normal_table_80 (p : R) :
  p = 8 / 10 -> Statsmodels.normal_table p = 841621 / 1000000.
Proof. intros ->. table_lookup. Qed.

Lemma table_agrees : Statsmodels.agrees_with_table Statsmodels.normal_table.
Proof.
  unfold Statsmodels.agrees_with_table.
  rewrite !Rminus_diag, Rabs_R0. lra.
Qed.

Lemma Rabs_within (x c e : R) : Rabs (x - c) <= e -> c - e <= x <= c + e.
Proof. unfold Rabs. destruct (Rcase_abs (x - c)); lra. Qed.

(** The sum of the two quantiles at 95% confidence and 80% power. *)
Lemma quantile_sum_95_80 (norm_ppf : R -> R) (i : CalculationInput) :
  Statsmodels.agrees_with_table norm_ppf ->
  confidence_level i = 95%Z -> power i = 80%Z ->
  2801583 / 1000000
  <= norm_ppf (1 - (1 - IZR (confidence_level i) / 100) / 2)
     + norm_ppf (IZR (power i) / 100)
  <= 2801587 / 1000000.
Proof.
  intros [A B] Hc Hp. rewrite Hc, Hp.
  replace (1 - (1 - 95 / 100) / 2) with (975 / 1000) by lra.
  replace (80 / 100) with (8 / 10) by lra.
  rewrite normal_table_975 in A by reflexivity.
  rewrite normal_table_80 in B by reflexivity.
  apply Rabs_within in A. apply Rabs_within in B. lra.
Qed.

Lemma exact_control_n_eval
  (norm_ppf : R -> R) (i : CalculationInput) (r h : R) :
  allocation_ratio i = r ->
  cohen_h (baseline_rate i / 100) (treatment_rate i) = h ->
  exact_control_n norm_ppf i
  = (norm_ppf (1 - (1 - IZR (confidence_level i) / 100) / 2)
     + norm_ppf (IZR (power i) / 100)) ^ 2
    * (1 + 1 / r) / h ^ 2.
Proof.
  intros Hr Hh. unfold exact_control_n. cbv zeta.
  rewrite Hr, Hh. reflexivity.
Qed.

(** 25% against 50%: Cohen's h is pi/6. *)
Lemma cohen_h_quarter_half : cohen_h (25 / 100) (1 / 2) = PI / 6.
Proof.
  unfold cohen_h. replace (25 / 100) with (1 / 4) by lra.
  rewrite asin_sqrt_half, sqrt_quarter, asin_half. lra.
Qed.

(** 50% against 100%: Cohen's h is pi/2. *)
Lemma cohen_h_half_one : cohen_h (50 / 100) 1 = PI / 2.
Proof.
  unfold cohen_h. replace (50 / 100) with (1 / 2) by lra.
  rewrite asin_sqrt_half, asin_sqrt_one. lra.
Qed.

(** 50% against 99.95%: Cohen's h lies between 1.499 and pi/2. *)
Lemma cohen_h_half_9995 :
  1499 / 1000 <= cohen_h (50 / 100) (9995 / 10000) <= PI / 2.
Proof.
  unfold cohen_h. replace (50 / 100) with (1 / 2) by lra.
  rewrite asin_sqrt_half.
  pose proof asin_sqrt_9995. pose proof PI_bounds.
  pose proof (asin_sqrt_range (9995 / 10000)). lra.
Qed.

Lemma PI_square_bounds : 98596 / 10000 < PI * PI < 9872164 / 1000000.
Proof. pose proof PI_bounds. nra. Qed.

(** The inputs of the two examples below lie within the widgets' bounds. *)
Lemma examples_in_widget_range :
  in_widget_range Examples.split_10_90 /\
  in_widget_range (swap_weights Examples.split_10_90) /\
  in_widget_range (Examples.half_baseline (999 / 10)) /\
  in_widget_range (Examples.half_baseline 100).
Proof.
  unfold in_widget_range; cbn -[IZR Rdiv Rle]; repeat split; lra || lia.
Qed.

Section AtTableQuantiles.

Variable norm_ppf : R -> R.
Hypothesis near_table : Statsmodels.agrees_with_table norm_ppf.

Lemma exact_split_10_90 :
  31 < exact_control_n norm_ppf Examples.split_10_90 <= 32.
Proof.
  pose proof (quantile_sum_95_80 norm_ppf Examples.split_10_90 near_table
                eq_refl eq_refl) as [S1 S2].
  rewrite (exact_control_n_eval _ _ 9 (PI / 6)).
  - set (s := norm_ppf _ + norm_ppf _) in *.
    pose proof PI_square_bounds. pose proof PI_RGT_0.
    assert (Hs : 7848867 / 1000000 <= s * s <= 7848890 / 1000000) by nra.
    replace (s ^ 2) with (s * s) by ring.
    replace ((PI / 6) ^ 2) with (PI * PI / 36) by field.
    split; [apply div_gt_bound | apply div_le_bound]; lra.
  - unfold allocation_ratio, adjust_treatment_ratio. simpl. lra.
  - replace (treatment_rate Examples.split_10_90) with (1 / 2)
      by (unfold treatment_rate; simpl; lra).
    apply cohen_h_quarter_half.
Qed.

Lemma exact_split_90_10 :
  286 < exact_control_n norm_ppf (swap_weights Examples.split_10_90) <= 287.
Proof.
  pose proof (quantile_sum_95_80 norm_ppf (swap_weights Examples.split_10_90)
                near_table eq_refl eq_refl) as [S1 S2].
  rewrite (exact_control_n_eval _ _ (1 / 9) (PI / 6)).
  - set (s := norm_ppf _ + norm_ppf _) in *.
    pose proof PI_square_bounds. pose proof PI_RGT_0.
    assert (Hs : 7848867 / 1000000 <= s * s <= 7848890 / 1000000) by nra.
    replace (s ^ 2) with (s * s) by ring.
    replace ((PI / 6) ^ 2) with (PI * PI / 36) by field.
    split; [apply div_gt_bound | apply div_le_bound]; lra.
  - unfold allocation_ratio, adjust_treatment_ratio. simpl. lra.
  - replace (treatment_rate (swap_weights Examples.split_10_90)) with (1 / 2)
      by (unfold treatment_rate; simpl; lra).
    apply cohen_h_quarter_half.
Qed.

Lemma exact_half_baseline_100 :
  6 < exact_control_n norm_ppf (Examples.half_baseline 100) <= 7.
Proof.
  pose proof (quantile_sum_95_80 norm_ppf (Examples.half_baseline 100)
                near_table eq_refl eq_refl) as [S1 S2].
  rewrite (exact_control_n_eval _ _ 1 (PI / 2)).
  - set (s := norm_ppf _ + norm_ppf _) in *.
    pose proof PI_square_bounds. pose proof PI_RGT_0.
    assert (Hs : 7848867 / 1000000 <= s * s <= 7848890 / 1000000) by nra.
    replace (s ^ 2) with (s * s) by ring.
    replace ((PI / 2) ^ 2) with (PI * PI / 4) by field.
    split; [apply div_gt_bound | apply div_le_bound]; lra.
  - unfold allocation_ratio, adjust_treatment_ratio. simpl. lra.
  - replace (treatment_rate (Examples.half_baseline 100)) with 1
      by (unfold treatment_rate; simpl; lra).
    apply cohen_h_half_one.
Qed.

Lemma exact_half_baseline_999 :
  6 < exact_control_n norm_ppf (Examples.half_baseline (999 / 10)) <= 7.
Proof.
  pose proof (quantile_sum_95_80 norm_ppf (Examples.half_baseline (999 / 10))
                near_table eq_refl eq_refl) as [S1 S2].
  rewrite (exact_control_n_eval _ _ 1 (cohen_h (50 / 100) (9995 / 10000))).
  - set (s := norm_ppf _ + norm_ppf _) in *.
    pose proof cohen_h_half_9995 as [L U]. pose proof PI_bounds.
    set (h := cohen_h (50 / 100) (9995 / 10000)) in *.
    assert (Hs : 7848867 / 1000000 <= s * s <= 7848890 / 1000000) by nra.
    assert (Hu : h <= 1571 / 1000) by lra.
    assert (H2 : 2247 / 1000 <= h * h <= 2469 / 1000) by nra.
    replace (s ^ 2) with (s * s) by ring.
    replace (h ^ 2) with (h * h) by ring.
    split; [apply div_gt_bound | apply div_le_bound]; lra.
  - unfold allocation_ratio, adjust_treatment_ratio. simpl. lra.
  - replace (treatment_rate (Examples.half_baseline (999 / 10)))
      with (9995 / 10000) by (unfold treatment_rate; simpl; lra).
    reflexivity.
Qed.

(** 25% baseline, +100%, 95% confidence, 80% power: a 10/90 split needs 32
    and 288, the 90/10 split 287 and 32. *)
Lemma split_10_90_sizes :
  exists rs rs',
    compute_spec norm_ppf Examples.split_10_90 = Result rs /\
    compute_spec norm_ppf (swap_weights Examples.split_10_90) = Result rs' /\
    control_sample rs = 32%Z /\ treatment_sample rs = 288%Z /\
    control_sample rs' = 287%Z /\ treatment_sample rs' = 32%Z.
Proof.
  assert (V : valid_input Examples.split_10_90) by check_input.
  assert (V' : valid_input (swap_weights Examples.split_10_90)) by check_input.
  pose proof exact_split_10_90 as [L1 U1].
  pose proof exact_split_90_10 as [L2 U2].
  assert (C1 : Zceil (exact_control_n norm_ppf Examples.split_10_90) = 32%Z)
    by (apply Zceil_value; lra).
  assert (C2 : Zceil (exact_control_n norm_ppf
                        (swap_weights Examples.split_10_90)) = 287%Z)
    by (apply Zceil_value; lra).
  assert (R1 : allocation_ratio Examples.split_10_90 = 9)
    by (unfold allocation_ratio, adjust_treatment_ratio; simpl; lra).
  assert (R2 : allocation_ratio (swap_weights Examples.split_10_90) = 1 / 9)
    by (unfold allocation_ratio, adjust_treatment_ratio; simpl; lra).
  do 2 eexists.
  split; [apply (compute_spec_valid _ _ V)|].
  split; [apply (compute_spec_valid _ _ V')|].
  cbn [control_sample treatment_sample result_of].
  rewrite C1, C2, R1, R2.
  assert (T1 : Zceil (32 * 9) = 288%Z) by (apply Zceil_value; lra).
  assert (T2 : Zceil (287 * (1 / 9)) = 32%Z) by (apply Zceil_value; lra).
  rewrite T1, T2. repeat split; reflexivity.
Qed.

(** 50% baseline, 95% confidence, 80% power, even split: 7 in control both
    at +99.9% and at +100%. *)
Lemma half_baseline_sizes :
  exists rs1 rs2,
    compute_spec norm_ppf (Examples.half_baseline (999 / 10)) = Result rs1 /\
    compute_spec norm_ppf (Examples.half_baseline 100) = Result rs2 /\
    control_sample rs1 = 7%Z /\ control_sample rs2 = 7%Z.
Proof.
  assert (V1 : valid_input (Examples.half_baseline (999 / 10))) by check_input.
  assert (V2 : valid_input (Examples.half_baseline 100)) by check_input.
  pose proof exact_half_baseline_999 as [L1 U1].
  pose proof exact_half_baseline_100 as [L2 U2].
  assert (C1 : Zceil (exact_control_n norm_ppf
                        (Examples.half_baseline (999 / 10))) = 7%Z)
    by (apply Zceil_value; lra).
  assert (C2 : Zceil (exact_control_n norm_ppf
                        (Examples.half_baseline 100)) = 7%Z)
    by (apply Zceil_value; lra).
  do 2 eexists.
  split; [apply (compute_spec_valid _ _ V1)|].
  split; [apply (compute_spec_valid _ _ V2)|].
  cbn [control_sample result_of]. rewrite C1, C2. split; reflexivity.
Qed.



End AtTableQuantiles.


Lemma split_30_30_solver_call :
  solver_call Statsmodels.proportion_effectsize
    (Statsmodels.zt_ind_solve_power Statsmodels.normal_table)
    Examples.split_30_30
  = Some (exact_control_n Statsmodels.normal_table Examples.split_30_30).
Proof.
  assert (V : valid_input Examples.split_30_30) by check_input.
  apply spec_solver_call.
  - pose proof (valid_ratio _ V). lra.
  - pose proof (valid_effect_size _ V). lra.
Qed.

(** * The claims *)



(** C3.  The treatment rate is baseline_rate * (1 + relative_improvement).
    The run stops with the target-rate error exactly when that rate exceeds
    1, and then yields no result; at exactly 1 it goes on to the solver; and
    every result carries a treatment rate in (0,1]. *)
Theorem target_rate_validation
  (es : R -> R -> R) (solve : R -> R -> R -> R -> option R)
  (i : CalculationInput) :
  0 < baseline_rate i -> 0 < minimum_improvement i ->
  (1 < treatment_rate i ->
     compute es solve i = Stopped (TargetRateExceeds100 (treatment_rate i)) /\
     ~ is_result (compute es solve i)) /\
  (treatment_rate i <= 1 -> ~ is_validation_error (compute es solve i)) /\
  (treatment_rate i = 1 -> control_ratio i <> 0%Z ->
     forall n, solver_call es solve i = Some n ->
               compute es solve i = Result (result_of es i n)) /\
  (forall rs, compute es solve i = Result rs ->
     treatment_proportion rs
     = baseline_rate i / 100 * (1 + minimum_improvement i / 100) /\
     0 < treatment_proportion rs <= 1).
Proof.
  intros Hb Hm. repeat split.
  - apply compute_stops. assumption.
  - rewrite compute_stops by assumption. simpl. tauto.
  - intros Ht. destruct (Z.eq_dec (control_ratio i) 0) as [E | N].
    + rewrite (compute_zero_control es solve i Ht E). simpl. tauto.
    + rewrite (compute_calls_solver es solve i Ht N).
      destruct (solver_call es solve i); simpl; tauto.
  - intros Ht Hc n Hn. apply compute_result; [lra | exact Hc | exact Hn].
  - apply (result_passed_check es solve i rs H).
  - destruct (result_passed_check es solve i rs H) as [_ ->].
    unfold treatment_rate.
    apply Rmult_lt_0_compat; lra.
  - destruct (result_passed_check es solve i rs H) as [L ->]. exact L.
Qed.

(** 50% baseline and +100%: a target rate of exactly 1. *)
Lemma target_rate_validation_witness :
  (1 < treatment_rate (Examples.half_baseline 100) ->
     compute_spec Statsmodels.normal_table (Examples.half_baseline 100)
     = Stopped (TargetRateExceeds100 (treatment_rate (Examples.half_baseline 100))) /\
     ~ is_result
         (compute_spec Statsmodels.normal_table (Examples.half_baseline 100))) /\
  (treatment_rate (Examples.half_baseline 100) <= 1 ->
     ~ is_validation_error
         (compute_spec Statsmodels.normal_table (Examples.half_baseline 100))) /\
  (treatment_rate (Examples.half_baseline 100) = 1 ->
     control_ratio (Examples.half_baseline 100) <> 0%Z ->
     forall n,
       solver_call Statsmodels.proportion_effectsize
         (Statsmodels.zt_ind_solve_power Statsmodels.normal_table)
         (Examples.half_baseline 100) = Some n ->
       compute_spec Statsmodels.normal_table (Examples.half_baseline 100)
       = Result (result_of Statsmodels.proportion_effectsize
                           (Examples.half_baseline 100) n)) /\
  (forall rs,
     compute_spec Statsmodels.normal_table (Examples.half_baseline 100)
     = Result rs ->
     treatment_proportion rs
     = baseline_rate (Examples.half_baseline 100) / 100
       * (1 + minimum_improvement (Examples.half_baseline 100) / 100) /\
     0 < treatment_proportion rs <= 1).
Proof.
  apply (target_rate_validation Statsmodels.proportion_effectsize
           (Statsmodels.zt_ind_solve_power Statsmodels.normal_table)
           (Examples.half_baseline 100)); simpl; lra.
Defined.

(** The boundary scenario of the specification: 60% baseline and +100%. *)
Example over_target_stops :
  treatment_rate Examples.over_target = 12 / 10 /\
  compute_spec Statsmodels.normal_table Examples.over_target
  = Stopped (TargetRateExceeds100 (treatment_rate Examples.over_target)).
Proof.
  assert (E : treatment_rate Examples.over_target = 12 / 10)
    by (unfold treatment_rate; simpl; lra).
  split; [exact E|]. apply compute_stops. lra.
Qed.

(** C4.  Weights that do not add up to 100 are not an error: the run goes on
    with the variation weight re-derived as 100 - control_weight (and a
    warning), and the ratio is that weight over the control weight; weights
    that add up to 100 are both used as supplied. *)
Theorem split_normalisation
  (es : R -> R -> R) (solve : R -> R -> R -> R -> option R)
  (i : CalculationInput) (n : R) :
  treatment_rate i <= 1 -> control_ratio i <> 0%Z ->
  solver_call es solve i = Some n ->
  exists rs,
    compute es solve i = Result rs /\
    ratio rs = IZR (adjusted_treatment_ratio rs) / IZR (control_ratio i) /\
    ((control_ratio i + treatment_ratio i <> 100)%Z ->
       adjusted_treatment_ratio rs = (100 - control_ratio i)%Z /\
       split_warning rs = Some (control_ratio i + treatment_ratio i)%Z) /\
    ((control_ratio i + treatment_ratio i = 100)%Z ->
       adjusted_treatment_ratio rs = treatment_ratio i /\
       split_warning rs = None).
Proof.
  intros Ht Hc Hn. exists (result_of es i n).
  split; [apply compute_result; assumption|].
  cbn [ratio adjusted_treatment_ratio split_warning result_of].
  split; [reflexivity|]. split; intros Hs.
  - split; [apply adjust_other_total | apply warning_other_total]; exact Hs.
  - split; [apply adjust_sums_to_100 | apply warning_sums_to_100]; exact Hs.
Qed.

(** Weights of 30 and 30: the variation weight becomes 70. *)
Lemma split_normalisation_witness :
  exists rs,
    compute_spec Statsmodels.normal_table Examples.split_30_30 = Result rs /\
    ratio rs
    = IZR (adjusted_treatment_ratio rs)
      / IZR (control_ratio Examples.split_30_30) /\
    ((control_ratio Examples.split_30_30
      + treatment_ratio Examples.split_30_30 <> 100)%Z ->
       adjusted_treatment_ratio rs
       = (100 - control_ratio Examples.split_30_30)%Z /\
       split_warning rs
       = Some (control_ratio Examples.split_30_30
               + treatment_ratio Examples.split_30_30)%Z) /\
    ((control_ratio Examples.split_30_30
      + treatment_ratio Examples.split_30_30 = 100)%Z ->
       adjusted_treatment_ratio rs = treatment_ratio Examples.split_30_30 /\
       split_warning rs = None).
Proof.
  apply (split_normalisation Statsmodels.proportion_effectsize
           (Statsmodels.zt_ind_solve_power Statsmodels.normal_table)
           Examples.split_30_30
           (exact_control_n Statsmodels.normal_table Examples.split_30_30)).
  - unfold treatment_rate. simpl. lra.
  - simpl. lia.
  - exact split_30_30_solver_call.
Defined.







(** C7, as the script has it.  The target-rate check is the script's only
    validation.  Whatever else is wrong with an input whose treatment rate is
    at most 1, no validation error is raised: a control weight of 0 ends the
    run in a division by zero, and any other input goes to the solver, whose
    outcome is the run's. *)
Theorem only_target_rate_is_validated
  (es : R -> R -> R) (solve : R -> R -> R -> R -> option R)
  (i : CalculationInput) :
  treatment_rate i <= 1 ->
  ~ is_validation_error (compute es solve i) /\
  (control_ratio i = 0%Z -> compute es solve i = Crashed ZeroDivisionError) /\
  (control_ratio i <> 0%Z ->
     compute es solve i
     = match solver_call es solve i with
       | None => Crashed SolverError
       | Some n => Result (result_of es i n)
       end).
Proof.
  intros Ht.
  assert (Z0 : control_ratio i = 0%Z ->
               compute es solve i = Crashed ZeroDivisionError)
    by (apply compute_zero_control; exact Ht).
  assert (Z1 : control_ratio i <> 0%Z ->
               compute es solve i
               = match solver_call es solve i with
                 | None => Crashed SolverError
                 | Some n => Result (result_of es i n)
                 end)
    by (apply compute_calls_solver; exact Ht).
  split; [| split; assumption].
  destruct (Z.eq_dec (control_ratio i) 0) as [E | N].
  - rewrite (Z0 E). simpl. tauto.
  - rewrite (Z1 N). destruct (solver_call es solve i); simpl; tauto.
Qed.

(** Weights of 120 and -20. *)
Lemma only_target_rate_is_validated_witness :
  ~ is_validation_error
      (compute_spec Statsmodels.normal_table Examples.negative_weight) /\
  (control_ratio Examples.negative_weight = 0%Z ->
     compute_spec Statsmodels.normal_table Examples.negative_weight
     = Crashed ZeroDivisionError) /\
  (control_ratio Examples.negative_weight <> 0%Z ->
     compute_spec Statsmodels.normal_table Examples.negative_weight
     = match
         solver_call Statsmodels.proportion_effectsize
           (Statsmodels.zt_ind_solve_power Statsmodels.normal_table)
           Examples.negative_weight
       with
       | None => Crashed SolverError
       | Some n =>
           Result (result_of Statsmodels.proportion_effectsize
                             Examples.negative_weight n)
       end).
Proof.
  apply (only_target_rate_is_validated Statsmodels.proportion_effectsize
           (Statsmodels.zt_ind_solve_power Statsmodels.normal_table)
           Examples.negative_weight).
  unfold treatment_rate. simpl. lra.
Defined.

(** C7 as stated fails for a variation weight of -20% beside a control weight
    of 120%: the weights add up to 100, nothing rejects them, and the run
    ends with a result. *)
Lemma negative_weight_not_rejected :
  (treatment_ratio Examples.negative_weight <= 0)%Z /\
  ~ is_validation_error
      (compute_spec Statsmodels.normal_table Examples.negative_weight) /\
  is_result (compute_spec Statsmodels.normal_table Examples.negative_weight).
Proof.
  assert (Ht : treatment_rate Examples.negative_weight = 1 / 2)
    by (unfold treatment_rate; simpl; lra).
  assert (E : compute_spec Statsmodels.normal_table Examples.negative_weight
              = Result (result_of Statsmodels.proportion_effectsize
                          Examples.negative_weight
                          (exact_control_n Statsmodels.normal_table
                             Examples.negative_weight))).
  { unfold compute_spec. apply compute_result.
    - lra.
    - simpl. lia.
    - apply spec_solver_call.
      + unfold allocation_ratio, adjust_treatment_ratio. simpl. lra.
      + rewrite Ht. simpl baseline_rate.
        pose proof (cohen_h_pos (25 / 100) (1 / 2)). lra. }
  split; [simpl; lia|]. rewrite E. simpl. tauto.
Qed.

(** C8, as the script has it.  Exchanging two weights that add up to 100
    inverts the ratio and exchanges the exact, unrounded sizes.  The rounded
    sizes follow only up to rounding: the control size after the exchange is
    at most the treatment size before it and less than ratio + 1 below it,
    and likewise the other way round; an even split is exchanged exactly. *)
Theorem swap_up_to_rounding (norm_ppf : R -> R) (i : CalculationInput) :
  valid_input i -> (control_ratio i + treatment_ratio i = 100)%Z ->
  exists rs rs',
    compute_spec norm_ppf i = Result rs /\
    compute_spec norm_ppf (swap_weights i) = Result rs' /\
    ratio rs' = 1 / ratio rs /\
    exact_control_n norm_ppf (swap_weights i)
    = exact_control_n norm_ppf i * ratio rs /\
    exact_control_n norm_ppf i
    = exact_control_n norm_ppf (swap_weights i) * ratio rs' /\
    (control_sample rs' <= treatment_sample rs)%Z /\
    IZR (treatment_sample rs) < IZR (control_sample rs') + ratio rs + 1 /\
    (control_sample rs <= treatment_sample rs')%Z /\
    IZR (treatment_sample rs') < IZR (control_sample rs) + ratio rs' + 1 /\
    (control_ratio i = treatment_ratio i ->
       control_sample rs' = treatment_sample rs /\
       treatment_sample rs' = control_sample rs).
Proof.
  intros V Hs.
  pose proof (swap_valid i V Hs) as V'.
  pose proof (swap_exact norm_ppf i V Hs) as E.
  destruct (swap_ratio i Hs) as [R1 R2].
  pose proof (valid_ratio i V) as P1. pose proof (valid_ratio _ V') as P2.
  assert (Hinv : allocation_ratio (swap_weights i) = 1 / allocation_ratio i).
  { rewrite R1, R2. rewrite R1 in P1. rewrite R2 in P2.
    destruct V as (_ & _ & _ & _ & _ & Hc & Ht).
    assert (0 < IZR (control_ratio i)) by (apply IZR_lt; lia).
    assert (0 < IZR (treatment_ratio i)) by (apply IZR_lt; lia).
    field. split; lra. }
  assert (E' : exact_control_n norm_ppf i
               = exact_control_n norm_ppf (swap_weights i)
                 * allocation_ratio (swap_weights i)).
  { rewrite E, Hinv. field. lra. }
  do 2 eexists.
  split; [apply (compute_spec_valid norm_ppf i V)|].
  split; [apply (compute_spec_valid norm_ppf _ V')|].
  cbn [ratio control_sample treatment_sample result_of].
  split; [exact Hinv|]. split; [exact E|]. split; [exact E'|].
  pose proof (ceil_scaled (exact_control_n norm_ppf i) _ P1) as [A1 A2].
  pose proof (ceil_scaled (exact_control_n norm_ppf (swap_weights i)) _ P2)
    as [B1 B2].
  rewrite <- E in A1, A2. rewrite <- E' in B1, B2.
  split; [exact A1|]. split; [exact A2|]. split; [exact B1|].
  split; [exact B2|].
  intros Heq.
  assert (Q1 : allocation_ratio i = 1).
  { rewrite R1, Heq. field. rewrite <- Heq.
    destruct V as (_ & _ & _ & _ & _ & Hc & _).
    apply not_0_IZR. lia. }
  assert (Q2 : allocation_ratio (swap_weights i) = 1) by (rewrite Hinv, Q1; lra).
  rewrite E, Q1, Q2, !Rmult_1_r, !Zceil_IZR. split; reflexivity.
Qed.

(** The 10/90 example and its exchange, 90/10. *)
Lemma swap_up_to_rounding_witness :
  exists rs rs',
    compute_spec Statsmodels.normal_table Examples.split_10_90 = Result rs /\
    compute_spec Statsmodels.normal_table (swap_weights Examples.split_10_90)
    = Result rs' /\
    ratio rs' = 1 / ratio rs /\
    exact_control_n Statsmodels.normal_table (swap_weights Examples.split_10_90)
    = exact_control_n Statsmodels.normal_table Examples.split_10_90 * ratio rs /\
    exact_control_n Statsmodels.normal_table Examples.split_10_90
    = exact_control_n Statsmodels.normal_table
        (swap_weights Examples.split_10_90) * ratio rs' /\
    (control_sample rs' <= treatment_sample rs)%Z /\
    IZR (treatment_sample rs) < IZR (control_sample rs') + ratio rs + 1 /\
    (control_sample rs <= treatment_sample rs')%Z /\
    IZR (treatment_sample rs') < IZR (control_sample rs) + ratio rs' + 1 /\
    (control_ratio Examples.split_10_90 = treatment_ratio Examples.split_10_90 ->
       control_sample rs' = treatment_sample rs /\
       treatment_sample rs' = control_sample rs).
Proof.
  apply (swap_up_to_rounding Statsmodels.normal_table Examples.split_10_90).
  - check_input.
  - reflexivity.
Defined.

(** C8 as stated fails at 25% baseline, +100%, 95% confidence and 80% power:
    a 10/90 split needs 32 and 288, the 90/10 split 287 and 32. *)
Lemma swap_is_not_exact :
  exists rs rs',
    compute_spec Statsmodels.normal_table Examples.split_10_90 = Result rs /\
    compute_spec Statsmodels.normal_table (swap_weights Examples.split_10_90)
    = Result rs' /\
    control_sample rs = 32%Z /\ treatment_sample rs = 288%Z /\
    control_sample rs' = 287%Z /\ treatment_sample rs' = 32%Z /\
    control_sample rs' <> treatment_sample rs.
Proof.
  destruct (split_10_90_sizes Statsmodels.normal_table table_agrees)
    as (rs & rs' & E & E' & C & T & C' & T').
  exists rs, rs'. repeat split; try assumption.
  rewrite C', T. lia.
Qed.

(** C9, as the script has it.  For a fixed baseline rate, confidence, power
    and split, a larger relative improvement never needs a larger control
    sample; the exact solution falls strictly (when the two quantiles do not
    cancel), the rounded size may stay the same. *)
Theorem control_sample_weakly_decreasing
  (norm_ppf : R -> R) (i : CalculationInput) (m1 m2 : R) :
  valid_input (with_improvement i m1) ->
  valid_input (with_improvement i m2) ->
  m1 < m2 ->
  exists rs1 rs2,
    compute_spec norm_ppf (with_improvement i m1) = Result rs1 /\
    compute_spec norm_ppf (with_improvement i m2) = Result rs2 /\
    (control_sample rs2 <= control_sample rs1)%Z /\
    exact_control_n norm_ppf (with_improvement i m2)
      <= exact_control_n norm_ppf (with_improvement i m1) /\
    (norm_ppf (1 - (1 - IZR (confidence_level i) / 100) / 2)
     + norm_ppf (IZR (power i) / 100) <> 0 ->
     exact_control_n norm_ppf (with_improvement i m2)
       < exact_control_n norm_ppf (with_improvement i m1)).
Proof.
  intros V1 V2 Hm.
  pose proof (valid_effect_size _ V1) as H1.
  pose proof (valid_ratio _ V1) as Hr.
  assert (Hb : 0 < baseline_rate i < 100) by apply V1.
  assert (Hm1 : 0 < m1) by apply V1.
  assert (Ht2 : baseline_rate i / 100 * (1 + m2 / 100) <= 1) by apply V2.
  change (allocation_ratio (with_improvement i m1)) with (allocation_ratio i)
    in Hr.
  change (cohen_h (baseline_rate (with_improvement i m1) / 100)
            (treatment_rate (with_improvement i m1)))
    with (cohen_h (baseline_rate i / 100)
            (baseline_rate i / 100 * (1 + m1 / 100))) in H1.
  assert (H12 : cohen_h (baseline_rate i / 100)
                  (baseline_rate i / 100 * (1 + m1 / 100))
                < cohen_h (baseline_rate i / 100)
                    (baseline_rate i / 100 * (1 + m2 / 100))).
  { apply cohen_h_increasing; [nra | nra | exact Ht2]. }
  set (s := norm_ppf (1 - (1 - IZR (confidence_level i) / 100) / 2)
            + norm_ppf (IZR (power i) / 100)).
  assert (Hs : 0 <= s ^ 2) by apply pow2_ge_0.
  assert (Ha : 0 < 1 + 1 / allocation_ratio i).
  { assert (0 < 1 / allocation_ratio i) by (apply Rdiv_lt_0_compat; lra). lra. }
  destruct (smaller_for_larger_effect (s ^ 2 * (1 + 1 / allocation_ratio i))
              _ _ H1 H12) as [Weak Strict].
  assert (Hle : exact_control_n norm_ppf (with_improvement i m2)
                <= exact_control_n norm_ppf (with_improvement i m1)).
  { rewrite !with_improvement_exact. apply Weak. nra. }
  do 2 eexists.
  split; [apply (compute_spec_valid norm_ppf _ V1)|].
  split; [apply (compute_spec_valid norm_ppf _ V2)|].
  cbn [control_sample result_of].
  split; [apply Zceil_le; exact Hle|]. split; [exact Hle|].
  intros Hne. rewrite !with_improvement_exact. apply Strict.
  assert (0 < s ^ 2) by (destruct (Rdichotomy _ _ Hne); nra).
  nra.
Qed.

(** 25% baseline, improvements of 50% and 100%. *)
Lemma control_sample_weakly_decreasing_witness :
  exists rs1 rs2,
    compute_spec Statsmodels.normal_table
      (with_improvement Examples.split_10_90 50) = Result rs1 /\
    compute_spec Statsmodels.normal_table
      (with_improvement Examples.split_10_90 100) = Result rs2 /\
    (control_sample rs2 <= control_sample rs1)%Z /\
    exact_control_n Statsmodels.normal_table
      (with_improvement Examples.split_10_90 100)
      <= exact_control_n Statsmodels.normal_table
           (with_improvement Examples.split_10_90 50) /\
    (Statsmodels.normal_table
       (1 - (1 - IZR (confidence_level Examples.split_10_90) / 100) / 2)
     + Statsmodels.normal_table (IZR (power Examples.split_10_90) / 100) <> 0 ->
     exact_control_n Statsmodels.normal_table
       (with_improvement Examples.split_10_90 100)
       < exact_control_n Statsmodels.normal_table
           (with_improvement Examples.split_10_90 50)).
Proof.
  apply (control_sample_weakly_decreasing Statsmodels.normal_table
           Examples.split_10_90 50 100).
  - check_input.
  - check_input.
  - lra.
Defined.

(** C9 as stated fails at 50% baseline, 95% confidence, 80% power and an
    even split: raising the relative improvement from 99.9% to 100% leaves
    the control sample at 7. *)
Lemma control_sample_not_strictly_decreasing :
  exists rs1 rs2,
    minimum_improvement (Examples.half_baseline (999 / 10))
      < minimum_improvement (Examples.half_baseline 100) /\
    compute_spec Statsmodels.normal_table (Examples.half_baseline (999 / 10))
    = Result rs1 /\
    compute_spec Statsmodels.normal_table (Examples.half_baseline 100)
    = Result rs2 /\
    control_sample rs1 = 7%Z /\ control_sample rs2 = 7%Z /\
    ~ (control_sample rs2 < control_sample rs1)%Z.
Proof.
  destruct (half_baseline_sizes Statsmodels.normal_table table_agrees)
    as (rs1 & rs2 & E1 & E2 & C1 & C2).
  exists rs1, rs2. split; [simpl; lra|].
  repeat split; try assumption.
  rewrite C1, C2. lia.
Qed.




(** * Further properties of the script *)

Lemma adjust_is_complement (c t : Z) :
  adjust_treatment_ratio c t = (100 - c)%Z.
Proof.
  unfold adjust_treatment_ratio.
  destruct (Z.eqb_spec (c + t) 100); cbn [negb]; lia.
Qed.

Lemma ratio_of_control (i : CalculationInput) :
  allocation_ratio i = IZR (100 - control_ratio i) / IZR (control_ratio i).
Proof. unfold allocation_ratio. rewrite adjust_is_complement. reflexivity. Qed.

Lemma ratio_positive (i : CalculationInput) :
  (0 < control_ratio i < 100)%Z -> 0 < allocation_ratio i.
Proof.
  intros Hc. rewrite ratio_of_control.
  apply Rdiv_lt_0_compat; apply IZR_lt; lia.
Qed.

Lemma Zceil_nonneg (x : R) : -1 < x -> (0 <= Zceil x)%Z.
Proof.
  intros H. pose proof (Zceil_bound x) as [_ U].
  assert (L : IZR (-1) < IZR (Zceil x)) by lra.
  apply lt_IZR in L. lia.
Qed.

Lemma Zceil_positive (x : R) : 0 < x -> (1 <= Zceil x)%Z.
Proof.
  intros H. pose proof (Zceil_bound x) as [_ U].
  assert (L : IZR 0 < IZR (Zceil x)) by lra.
  apply lt_IZR in L. lia.
Qed.

Lemma div_ge_bound (a d b : R) : 0 < d -> b * d <= a -> b <= a / d.
Proof.
  intros Hd H. apply Rmult_le_reg_r with d; [exact Hd|].
  unfold Rdiv. rewrite Rmult_assoc, Rinv_l by lra. lra.
Qed.

(** The ceiling of a quotient of integers, in integer terms. *)
Lemma Zceil_quotient (n k : Z) :
  (0 < k)%Z ->
  ((Zceil (IZR n / IZR k) - 1) * k < n <= Zceil (IZR n / IZR k) * k)%Z.
Proof.
  intros Hk. pose proof (Zceil_bound (IZR n / IZR k)) as [L U].
  set (d := Zceil (IZR n / IZR k)) in *.
  assert (K : 0 < IZR k) by (apply IZR_lt; lia).
  assert (E : IZR n = IZR n / IZR k * IZR k) by (field; lra).
  split.
  - apply lt_IZR. rewrite mult_IZR, minus_IZR. nra.
  - apply le_IZR. rewrite mult_IZR. nra.
Qed.

(** X1.  The "Variation (%)" input never reaches the numbers: whatever it
    is, the script goes on with 100 - control, so two runs that differ only
    in that input end alike and hold the same rates, ratio, effect size and
    sample sizes. *)
Theorem variation_input_is_ignored
  (es : R -> R -> R) (solve : R -> R -> R -> R -> option R)
  (i : CalculationInput) (t : Z) :
  adjust_treatment_ratio (control_ratio i) t = (100 - control_ratio i)%Z /\
  same_numbers (compute es solve i) (compute es solve (with_treatment_ratio i t)).
Proof.
  split; [apply adjust_is_complement|].
  unfold compute, with_treatment_ratio.
  cbn [baseline_rate minimum_improvement confidence_level power control_ratio
       treatment_ratio].
  rewrite !adjust_is_complement.
  destruct (Rlt_dec 1 _) as [L | N]; [reflexivity|].
  destruct (pydiv _ _) as [r|]; [|reflexivity].
  destruct (solve _ _ _ _) as [n|]; [|reflexivity].
  cbn. repeat split; reflexivity.
Qed.

(** X2.  With the control weight at 50 the two groups come out equal,
    whatever the variation weight says: the ratio is 1, the treatment sample
    is the control sample and the total is twice that. *)
Theorem even_control_gives_equal_groups
  (es : R -> R -> R) (solve : R -> R -> R -> R -> option R)
  (i : CalculationInput) (n : R) :
  treatment_rate i <= 1 -> control_ratio i = 50%Z ->
  solver_call es solve i = Some n ->
  exists rs,
    compute es solve i = Result rs /\
    ratio rs = 1 /\
    treatment_sample rs = control_sample rs /\
    total_needed rs = (2 * control_sample rs)%Z.
Proof.
  intros Ht Hc Hn. exists (result_of es i n).
  split; [apply compute_result; [exact Ht | lia | exact Hn]|].
  cbn [ratio control_sample treatment_sample total_needed result_of].
  assert (R1 : allocation_ratio i = 1)
    by (rewrite ratio_of_control, Hc; simpl; lra).
  rewrite R1, Rmult_1_r, Zceil_IZR. repeat split. lia.
Qed.

(** Control at 50 beside a variation of 30, and a solver that answers. *)
Lemma even_control_gives_equal_groups_witness :
  exists rs,
    compute Statsmodels.proportion_effectsize Examples.constant_solver
      (with_treatment_ratio (Examples.half_baseline 100) 30) = Result rs /\
    ratio rs = 1 /\
    treatment_sample rs = control_sample rs /\
    total_needed rs = (2 * control_sample rs)%Z.
Proof.
  apply (even_control_gives_equal_groups Statsmodels.proportion_effectsize
           Examples.constant_solver
           (with_treatment_ratio (Examples.half_baseline 100) 30) 1).
  - unfold treatment_rate. simpl. lra.
  - reflexivity.
  - reflexivity.
Defined.

(** X3.  The larger group is the one with the larger share of traffic: when
    the solver's answer is above -1 (so that the control sample is not
    negative), a control weight of at most 50 gives a treatment sample at
    least as large as the control sample, and a control weight of at least
    50 gives one at most as large. *)
Theorem larger_share_gets_larger_group
  (es : R -> R -> R) (solve : R -> R -> R -> R -> option R)
  (i : CalculationInput) (n : R) :
  treatment_rate i <= 1 -> (0 < control_ratio i < 100)%Z ->
  solver_call es solve i = Some n -> -1 < n ->
  exists rs,
    compute es solve i = Result rs /\
    (0 <= control_sample rs)%Z /\
    ((control_ratio i <= 50)%Z ->
       (control_sample rs <= treatment_sample rs)%Z) /\
    ((50 <= control_ratio i)%Z ->
       (treatment_sample rs <= control_sample rs)%Z).
Proof.
  intros Ht Hc Hn Hpos. exists (result_of es i n).
  split; [apply compute_result; [exact Ht | lia | exact Hn]|].
  cbn [control_sample treatment_sample result_of].
  pose proof (Zceil_nonneg n Hpos) as Hcs.
  assert (C0 : 0 <= IZR (Zceil n)) by (apply IZR_le; exact Hcs).
  assert (K : 0 < IZR (control_ratio i)) by (apply IZR_lt; lia).
  split; [exact Hcs|]. rewrite ratio_of_control. split; intros H.
  - rewrite <- (Zceil_IZR (Zceil n)) at 1. apply Zceil_le.
    assert (1 <= IZR (100 - control_ratio i) / IZR (control_ratio i)).
    { apply Rmult_le_reg_r with (IZR (control_ratio i)); [exact K|].
      unfold Rdiv. rewrite Rmult_assoc, Rinv_l, Rmult_1_r, Rmult_1_l by lra.
      apply IZR_le. lia. }
    nra.
  - rewrite <- (Zceil_IZR (Zceil n)) at 2. apply Zceil_le.
    assert (IZR (100 - control_ratio i) / IZR (control_ratio i) <= 1).
    { apply div_le_bound; [exact K|]. rewrite Rmult_1_l. apply IZR_le. lia. }
    assert (0 <= IZR (100 - control_ratio i) / IZR (control_ratio i)).
    { apply Rmult_le_pos; [apply IZR_le; lia|].
      left. apply Rinv_0_lt_compat. exact K. }
    nra.
Qed.

(** A 10/90 split and a solver that answers 1. *)
Lemma larger_share_gets_larger_group_witness :
  exists rs,
    compute Statsmodels.proportion_effectsize Examples.constant_solver
      Examples.split_10_90 = Result rs /\
    (0 <= control_sample rs)%Z /\
    ((control_ratio Examples.split_10_90 <= 50)%Z ->
       (control_sample rs <= treatment_sample rs)%Z) /\
    ((50 <= control_ratio Examples.split_10_90)%Z ->
       (treatment_sample rs <= control_sample rs)%Z).
Proof.
  apply (larger_share_gets_larger_group Statsmodels.proportion_effectsize
           Examples.constant_solver Examples.split_10_90 1).
  - unfold treatment_rate. simpl. lra.
  - simpl. lia.
  - reflexivity.
  - lra.
Defined.

(** X4.  A positive answer of the solver and a control weight strictly
    between 0 and 100 give at least one sample to each group; the total is
    never below the exact requirement n * (1 + ratio) and exceeds it by less
    than ratio + 2. *)
Theorem sizes_cover_the_requirement
  (es : R -> R -> R) (solve : R -> R -> R -> R -> option R)
  (i : CalculationInput) (n : R) :
  treatment_rate i <= 1 -> (0 < control_ratio i < 100)%Z ->
  solver_call es solve i = Some n -> 0 < n ->
  exists rs,
    compute es solve i = Result rs /\
    (1 <= control_sample rs)%Z /\
    (1 <= treatment_sample rs)%Z /\
    (2 <= total_needed rs)%Z /\
    n * (1 + ratio rs) <= IZR (total_needed rs) < n * (1 + ratio rs) + ratio rs + 2.
Proof.
  intros Ht Hc Hn Hpos. exists (result_of es i n).
  split; [apply compute_result; [exact Ht | lia | exact Hn]|].
  cbn [ratio control_sample treatment_sample total_needed result_of].
  pose proof (ratio_positive i Hc) as Hr.
  pose proof (Zceil_positive n Hpos) as Hcs.
  pose proof (Zceil_bound n) as [N1 N2].
  assert (C1 : 1 <= IZR (Zceil n)) by (apply IZR_le; exact Hcs).
  assert (Hts : (1 <= Zceil (IZR (Zceil n) * allocation_ratio i))%Z)
    by (apply Zceil_positive; nra).
  pose proof (Zceil_bound (IZR (Zceil n) * allocation_ratio i)) as [T1 T2].
  split; [exact Hcs|]. split; [exact Hts|]. split; [lia|].
  rewrite plus_IZR. split; nra.
Qed.

(** A 10/90 split and a solver that answers 1. *)
Lemma sizes_cover_the_requirement_witness :
  exists rs,
    compute Statsmodels.proportion_effectsize Examples.constant_solver
      Examples.split_10_90 = Result rs /\
    (1 <= control_sample rs)%Z /\
    (1 <= treatment_sample rs)%Z /\
    (2 <= total_needed rs)%Z /\
    1 * (1 + ratio rs) <= IZR (total_needed rs)
      < 1 * (1 + ratio rs) + ratio rs + 2.
Proof.
  apply (sizes_cover_the_requirement Statsmodels.proportion_effectsize
           Examples.constant_solver Examples.split_10_90 1).
  - unfold treatment_rate. simpl. lra.
  - simpl. lia.
  - reflexivity.
  - lra.
Defined.

(** X5.  The run ends in a division by zero exactly when the target rate
    passes the check of line 87 and the control weight is 0; a target rate
    above 1 is reported first, whatever the weights. *)
Theorem division_by_zero_iff_zero_control
  (es : R -> R -> R) (solve : R -> R -> R -> R -> option R)
  (i : CalculationInput) :
  compute es solve i = Crashed ZeroDivisionError
  <-> treatment_rate i <= 1 /\ control_ratio i = 0%Z.
Proof.
  split.
  - intros H. destruct (Rlt_dec 1 (treatment_rate i)) as [L | N].
    + rewrite (compute_stops es solve i L) in H. discriminate.
    + assert (Ht : treatment_rate i <= 1) by lra. split; [exact Ht|].
      destruct (Z.eq_dec (control_ratio i) 0) as [E | NE]; [exact E|].
      rewrite (compute_calls_solver es solve i Ht NE) in H.
      destruct (solver_call es solve i); discriminate.
  - intros [Ht Hc]. apply compute_zero_control; assumption.
Qed.

(** X6.  Inside the widgets' bounds, an input that passes the check of
    line 87 reaches the solver with arguments in its domain: two distinct
    proportions with 0 < control < treatment <= 1, alpha between 0.01 and
    0.2, power between 0.7 and 0.99 and a ratio between 1/9 and 9; the
    division of line 102 cannot fail. *)
Theorem widget_bounds_keep_arguments_in_domain
  (es : R -> R -> R) (solve : R -> R -> R -> R -> option R)
  (i : CalculationInput) :
  in_widget_range i -> treatment_rate i <= 1 ->
  0 < baseline_rate i / 100 < treatment_rate i /\
  1 / 100 <= IZR (100 - confidence_level i) / 100 <= 20 / 100 /\
  70 / 100 <= IZR (power i) / 100 <= 99 / 100 /\
  1 / 9 <= allocation_ratio i <= 9 /\
  compute es solve i
  = match solver_call es solve i with
    | None => Crashed SolverError
    | Some n => Result (result_of es i n)
    end.
Proof.
  intros (Hb & Hm & Hc & Hp & Hcr & Htr) Ht.
  split.
  { split; [lra|]. apply treatment_rate_above_baseline; lra. }
  split.
  { assert (1 <= IZR (100 - confidence_level i) <= 20)
      by (split; apply IZR_le; lia). lra. }
  split.
  { assert (70 <= IZR (power i) <= 99) by (split; apply IZR_le; lia). lra. }
  split.
  { rewrite ratio_of_control, minus_IZR.
    assert (10 <= IZR (control_ratio i) <= 90) by (split; apply IZR_le; lia).
    split; [apply div_ge_bound | apply div_le_bound]; lra. }
  apply compute_calls_solver; [exact Ht | lia].
Qed.

(** The 10/90 example lies inside the bounds. *)
Lemma widget_bounds_keep_arguments_in_domain_witness :
  0 < baseline_rate Examples.split_10_90 / 100
    < treatment_rate Examples.split_10_90 /\
  1 / 100 <= IZR (100 - confidence_level Examples.split_10_90) / 100
    <= 20 / 100 /\
  70 / 100 <= IZR (power Examples.split_10_90) / 100 <= 99 / 100 /\
  1 / 9 <= allocation_ratio Examples.split_10_90 <= 9 /\
  compute Statsmodels.proportion_effectsize Examples.constant_solver
    Examples.split_10_90
  = match
      solver_call Statsmodels.proportion_effectsize Examples.constant_solver
        Examples.split_10_90
    with
    | None => Crashed SolverError
    | Some n =>
        Result (result_of Statsmodels.proportion_effectsize
                          Examples.split_10_90 n)
    end.
Proof.
  apply (widget_bounds_keep_arguments_in_domain
           Statsmodels.proportion_effectsize Examples.constant_solver
           Examples.split_10_90).
  - unfold in_widget_range; cbn -[IZR Rdiv Rle]; repeat split; lra || lia.
  - unfold treatment_rate. simpl. lra.
Defined.

(** X8.  The two run-time estimates are the least numbers of days whose
    traffic, at 1,000 and at 10,000 visitors a day, reaches the total; the
    second is the first divided by ten and rounded up, and for a total that
    is not negative it is at most the first. *)
Theorem days_estimates_cover_total (rs : CalculationResult) :
  ((days_1k (report rs) - 1) * 1000 < total_needed rs
     <= days_1k (report rs) * 1000)%Z /\
  ((days_10k (report rs) - 1) * 10000 < total_needed rs
     <= days_10k (report rs) * 10000)%Z /\
  days_10k (report rs) = Zceil (IZR (days_1k (report rs)) / 10) /\
  ((0 <= total_needed rs)%Z ->
     (0 <= days_10k (report rs) <= days_1k (report rs))%Z).
Proof.
  cbn [report days_1k days_10k].
  pose proof (Zceil_quotient (total_needed rs) 1000 ltac:(lia)) as H1.
  pose proof (Zceil_quotient (total_needed rs) 10000 ltac:(lia)) as H2.
  set (d1 := Zceil (IZR (total_needed rs) / 1000)) in *.
  set (d2 := Zceil (IZR (total_needed rs) / 10000)) in *.
  split; [exact H1|]. split; [exact H2|]. split; [| lia].
  symmetry. apply Zceil_value.
  - assert (L : (10 * (d2 - 1) < d1)%Z) by lia.
    apply IZR_lt in L. rewrite mult_IZR, minus_IZR in L. lra.
  - assert (U : (d1 <= 10 * d2)%Z) by lia.
    apply IZR_le in U. rewrite mult_IZR in U. lra.
Qed.
